(** * The Largest Contentful Paint element audit

    A shallow embedding of [core/audits/largest-contentful-paint-element.js]:
    the static methods [makePhaseTable] and [audit] of the class
    [LargestContentfulPaintElement], and the properties of the phase
    breakdown (TTFB, load delay, load time, render delay) they produce.

    JavaScript numbers are IEEE 754 binary64 values; they are modelled by
    Rocq's primitive floats, whose operations round to nearest even exactly as
    the JavaScript operators do.  A property access on [undefined] raises a
    [TypeError]; the code is therefore written in a small completion monad. *)

From Stdlib Require Import Floats String List Bool ZArith.
Import ListNotations.

Set Warnings "-inexact-float".

Open Scope string_scope.
Open Scope list_scope.

(** ** Completions: a JavaScript evaluation returns or throws *)

Inductive JsError : Type :=
| TypeError (message : string).

Inductive Completion (A : Type) : Type :=
| Normal (value : A)
| Throw (error : JsError).

Arguments Normal {A} value.
Arguments Throw {A} error.

Definition bind {A B : Type} (c : Completion A) (k : A -> Completion B)
  : Completion B :=
  match c with
  | Normal a => k a
  | Throw e => Throw e
  end.

Declare Scope js_scope.
Delimit Scope js_scope with js.
Notation "x <- c ;; k" := (bind c (fun x => k))
  (at level 61, c at next level, right associativity) : js_scope.
Open Scope js_scope.

(** ** JavaScript numbers *)

Module Js.

(** [ToBoolean] on a number: [0], [-0] and [NaN] are falsy. *)
Definition toBoolean (x : float) : bool :=
  negb (PrimFloat.eqb x 0 || PrimFloat.is_nan x).

(** [ToBoolean] on a value of type [number|undefined]. *)
Definition truthy (v : option float) : bool :=
  match v with
  | Some x => toBoolean x
  | None => false
  end.

(** The operator [!]. *)
Definition not (v : option float) : bool := negb (truthy v).

(** The expression [a + b + c + d], evaluated left to right. *)
Definition sum4 (a b c d : float) : float := (a + b + c + d)%float.

End Js.

(** ** Data model *)

(** [LH.Artifacts.NetworkRequest], restricted to the fields the audit reads. *)
Record NetworkRecord : Type := {
  requestId : string;
  networkRequestTime : float;
  networkEndTime : float;
  responseHeadersEndTime : float
}.

Record NavigationTimestamps : Type := { timeOrigin : float }.

Record ProcessedNavigation : Type := { timestamps : NavigationTimestamps }.

(** A node of the simulation graph.  Only a network node carries a record. *)
Inductive Node : Type :=
| NetworkNode (record : NetworkRecord)
| CPUNode.

Module NodeObject.

(** [node.type] *)
Definition type (node : Node) : string :=
  match node with
  | NetworkNode _ => "network"
  | CPUNode => "cpu"
  end.

(** [node.record]: [undefined] on a node that is not a network node. *)
Definition record (node : Node) : option NetworkRecord :=
  match node with
  | NetworkNode r => Some r
  | CPUNode => None
  end.

End NodeObject.

(** [value.requestId], where [value] may be [undefined]. *)
Definition get_requestId (value : option NetworkRecord) : Completion string :=
  match value with
  | Some r => Normal (requestId r)
  | None => Throw (TypeError "Cannot read properties of undefined (reading 'requestId')")
  end.

Record NodeTiming : Type := { startTime : float; endTime : float }.

(** [nodeTimings] is a [Map]; iterating it yields its entries in insertion
    order. *)
Record Estimate : Type := { nodeTimings : list (Node * NodeTiming) }.

(** [LH.Artifacts.Metric | LH.Artifacts.LanternMetric]: the property
    [pessimisticEstimate] is present on a simulated result only. *)
Record MetricResult : Type := {
  timing : float;
  pessimisticEstimate : option Estimate
}.

Record IcuMessage : Type := {
  i18nId : string;
  values : list (string * nat)
}.

Inductive Label : Type :=
| LabelText (text : string)
| LabelIcu (message : IcuMessage).

Record Heading : Type := {
  key : string;
  valueType : string;
  label : Label
}.

Section Details.

(** The node items of the report are built outside this file. *)
Variable NodeItem : Type.

Inductive TableItem : Type :=
| NodeRow (node : NodeItem)
| PhaseRow (phase : string) (timing : float).

Record Table : Type := {
  table_type : string;
  headings : list Heading;
  items : list TableItem
}.

Record ListDetails : Type := {
  list_type : string;
  list_items : list Table
}.

Record Product : Type := {
  score : float;
  notApplicable : bool;
  displayValue : IcuMessage;
  details : ListDetails
}.

End Details.

Arguments NodeRow {NodeItem} node.
Arguments PhaseRow {NodeItem} phase timing.
Arguments table_type {NodeItem} t.
Arguments headings {NodeItem} t.
Arguments items {NodeItem} t.
Arguments list_type {NodeItem} l.
Arguments list_items {NodeItem} l.
Arguments score {NodeItem} p.
Arguments notApplicable {NodeItem} p.
Arguments displayValue {NodeItem} p.
Arguments details {NodeItem} p.

(** ** The artifacts

    The audit passes the trace, the DevTools log, the gather context, the
    settings and the URL artifact on without reading them, and hands the node
    of a trace element to [Audit.makeNodeItem]; their types are left open. *)

Class ArtifactTypes : Type := {
  Trace : Type;
  DevtoolsLog : Type;
  GatherContextT : Type;
  SettingsT : Type;
  URLT : Type;
  NodeDetails : Type;
  NodeItem : Type
}.

Section Audit.

Context {T : ArtifactTypes}.

Record TraceElement : Type := {
  traceEventType : string;
  node : NodeDetails
}.

(** [LH.Artifacts]: [traces] and [devtoolsLogs] are objects keyed by pass
    name, read here through their lookup. *)
Record Artifacts : Type := {
  traces : string -> option Trace;
  devtoolsLogs : string -> option DevtoolsLog;
  TraceElements : list TraceElement;
  GatherContext : GatherContextT;
  URL : URLT
}.

Record AuditContext : Type := { settings : SettingsT }.

(** The object literal [metricComputationData] of lines 50-51. *)
Record MetricComputationData : Type := {
  mcd_trace : option Trace;
  mcd_devtoolsLog : option DevtoolsLog;
  mcd_gatherContext : GatherContextT;
  mcd_settings : SettingsT;
  mcd_URL : URLT
}.

(** ** The collaborators of the audit

    The computed artifacts, [PrioritizeLcpImage.getLcpRecord] and the helpers
    of the [Audit] base class live in other files.  What they return is read
    by the audit; how they compute it is not, so they are the fields of an
    interface. *)

Class Collaborators : Type := {
  (** [Audit.DEFAULT_PASS] *)
  DEFAULT_PASS : string;
  (** [NetworkRecords.request] *)
  NetworkRecords_request : option DevtoolsLog -> list NetworkRecord;
  (** [ProcessedNavigation.request] *)
  ProcessedNavigation_request : option Trace -> ProcessedNavigation;
  (** [LargestContentfulPaint.request] *)
  LargestContentfulPaint_request : MetricComputationData -> MetricResult;
  (** [MainResource.request] *)
  MainResource_request : MetricComputationData -> NetworkRecord;
  (** [PrioritizeLcpImage.getLcpRecord] *)
  getLcpRecord :
    option Trace -> ProcessedNavigation -> list NetworkRecord -> option NetworkRecord;
  (** [Audit.makeNodeItem] *)
  makeNodeItem : NodeDetails -> NodeItem
}.

Context {C : Collaborators}.

(** Modelled from the spec: [Audit.makeTableDetails] of [audit.js], which is
    not among the sources; the result assembler packages headings and rows
    into one table. *)
Definition makeTableDetails (headings : list Heading) (results : list (TableItem NodeItem))
  : Table NodeItem :=
  {| table_type := "table"; headings := headings; items := results |}.

(** Modelled from the spec: [Audit.makeListDetails] of [audit.js], which is
    not among the sources; the groups of the result, in order. *)
Definition makeListDetails (items : list (Table NodeItem)) : ListDetails NodeItem :=
  {| list_type := "list"; list_items := items |}.

(** [str_(message, values)]: the message is localised by the report. *)
Definition str_ (message : string) (values : list (string * nat)) : IcuMessage :=
  {| i18nId := message; values := values |}.

(** The load timestamps [lcpLoadStartTs] and [lcpLoadEndTs], both of type
    [number|undefined]. *)
Definition LoadTs : Type := (option float * option float)%type.

(** The test of line 71:
    [node.type === 'network' && node.record.requestId === lcpRecord.requestId]. *)
Definition isLcpNode (node : Node) (lcpRecord : NetworkRecord) : Completion bool :=
  if String.eqb (NodeObject.type node) "network" then
    id <- get_requestId (NodeObject.record node) ;;
    Normal (String.eqb id (requestId lcpRecord))
  else Normal false.

(** The loop of lines 70-76 over the entries of [nodeTimings]. *)
Fixpoint forNodeTimings (entries : list (Node * NodeTiming))
    (lcpRecord : NetworkRecord) (timeOriginTs : float) (ts : LoadTs)
  : Completion LoadTs :=
  match entries with
  | [] => Normal ts
  | (node, timing) :: rest =>
      hit <- isLcpNode node lcpRecord ;;
      forNodeTimings rest lcpRecord timeOriginTs
        (if hit : bool
         then (Some (startTime timing * 1000 + timeOriginTs)%float,
               Some (endTime timing * 1000 + timeOriginTs)%float)
         else ts)
  end.

(** Lines 64-80: the two declarations and the choice of the timing source. *)
Definition selectLoadTs (metricResult : MetricResult) (lcpRecord : NetworkRecord)
    (timeOriginTs : float) : Completion LoadTs :=
  let lcpLoadStartTs : option float := None in
  let lcpLoadEndTs : option float := None in
  match pessimisticEstimate metricResult with
  | Some estimate =>
      forNodeTimings (nodeTimings estimate) lcpRecord timeOriginTs
        (lcpLoadStartTs, lcpLoadEndTs)
  | None =>
      Normal (Some (networkRequestTime lcpRecord * 1000)%float,
              Some (networkEndTime lcpRecord * 1000)%float)
  end.

Definition phaseHeadings : list Heading :=
  [ {| key := "phase"; valueType := "text"; label := LabelText "Phase" |};
    {| key := "timing"; valueType := "ms"; label := LabelText "Timing" |} ].

(** Lines 87-106: the four durations and the table, once both load
    timestamps are known to be numbers. *)
Definition phaseDetails (metricResult : MetricResult)
    (timeOriginTs firstByteTs lcpLoadStartTs lcpLoadEndTs : float)
  : list (TableItem NodeItem) :=
  let ttfb := ((firstByteTs - timeOriginTs) / 1000)%float in
  let loadDelay := ((lcpLoadStartTs - firstByteTs) / 1000)%float in
  let loadTime := ((lcpLoadEndTs - lcpLoadStartTs) / 1000)%float in
  let renderDelay := (timing metricResult - loadTime - loadDelay - ttfb)%float in
  [ PhaseRow "TTFB" ttfb;
    PhaseRow "Load Delay" loadDelay;
    PhaseRow "Load Time" loadTime;
    PhaseRow "Render Delay" renderDelay ].

(** The computed artifacts requested at the top of [makePhaseTable]. *)
Definition metricComputationData (artifacts : Artifacts) (context : AuditContext)
  : MetricComputationData :=
  {| mcd_trace := traces artifacts DEFAULT_PASS;
     mcd_devtoolsLog := devtoolsLogs artifacts DEFAULT_PASS;
     mcd_gatherContext := GatherContext artifacts;
     mcd_settings := settings context;
     mcd_URL := URL artifacts |}.

(** [makePhaseTable].  After the guard of line 82 both load timestamps are
    numbers; the inner [match] is that narrowing of [number|undefined], and
    its last branch is never taken. *)
Definition makePhaseTable (artifacts : Artifacts) (context : AuditContext)
  : Completion (option (Table NodeItem)) :=
  let trace := traces artifacts DEFAULT_PASS in
  let devtoolsLog := devtoolsLogs artifacts DEFAULT_PASS in
  let networkRecords := NetworkRecords_request devtoolsLog in
  let processedNavigation := ProcessedNavigation_request trace in
  let metricResult :=
    LargestContentfulPaint_request (metricComputationData artifacts context) in
  let mainResource :=
    MainResource_request (metricComputationData artifacts context) in
  match getLcpRecord trace processedNavigation networkRecords with
  | None => Normal None
  | Some lcpRecord =>
      let timeOriginTs := timeOrigin (timestamps processedNavigation) in
      let firstByteTs := (responseHeadersEndTime mainResource * 1000)%float in
      ts <- selectLoadTs metricResult lcpRecord timeOriginTs ;;
      if Js.not (fst ts) || Js.not (snd ts) then Normal None
      else
        match ts with
        | (Some lcpLoadStartTs, Some lcpLoadEndTs) =>
            Normal (Some (makeTableDetails phaseHeadings
              (phaseDetails metricResult timeOriginTs firstByteTs
                 lcpLoadStartTs lcpLoadEndTs)))
        | _ => Normal None
        end
  end.

Definition isLcpElement (element : TraceElement) : bool :=
  String.eqb (traceEventType element) "largest-contentful-paint".

Definition elementHeadings : list Heading :=
  [ {| key := "node"; valueType := "node";
       label := LabelIcu (str_ "columnElement" []) |} ].

Definition audit (artifacts : Artifacts) (context : AuditContext)
  : Completion (Product NodeItem) :=
  let lcpElement := find isLcpElement (TraceElements artifacts) in
  let lcpElementDetails : list (TableItem NodeItem) :=
    match lcpElement with
    | Some element => [] ++ [NodeRow (makeNodeItem (node element))]
    | None => []
    end in
  let elementTable := makeTableDetails elementHeadings lcpElementDetails in
  let items := [elementTable] in
  phaseTable <- makePhaseTable artifacts context ;;
  let items :=
    match phaseTable with
    | Some table => items ++ [table]
    | None => items
    end in
  let details := makeListDetails items in
  let displayValue :=
    str_ "displayValueElementsFound" [("nodeCount", length lcpElementDetails)] in
  Normal {| score := 1;
            notApplicable := Nat.eqb (length lcpElementDetails) 0;
            displayValue := displayValue;
            details := details |}.

End Audit.

Arguments Collaborators T : clear implicits.
Arguments Artifacts T : clear implicits.
Arguments AuditContext T : clear implicits.

(** ** Definitions used in the statements *)

(** A simulation node is the one of the LCP record: it is a network node whose
    record has the request id of the LCP record. *)
Definition matchesLcp (node : Node) (lcpRecord : NetworkRecord) : bool :=
  match node with
  | NetworkNode r => String.eqb (requestId r) (requestId lcpRecord)
  | CPUNode => false
  end.

(** Two LCP records that differ at most in their observed times
    [networkRequestTime] and [networkEndTime]. *)
Definition sameButObservedTimes (a b : option NetworkRecord) : Prop :=
  match a, b with
  | Some r, Some r' =>
      requestId r = requestId r' /\
      responseHeadersEndTime r = responseHeadersEndTime r'
  | None, None => True
  | _, _ => False
  end.

(** The collaborators [C], with another resolver of the LCP record. *)
Definition withLcpRecord {T : ArtifactTypes} (C : Collaborators T)
    (resolver : option Trace -> ProcessedNavigation -> list NetworkRecord ->
                option NetworkRecord) : Collaborators T :=
  {| DEFAULT_PASS := DEFAULT_PASS;
     NetworkRecords_request := NetworkRecords_request;
     ProcessedNavigation_request := ProcessedNavigation_request;
     LargestContentfulPaint_request := LargestContentfulPaint_request;
     MainResource_request := MainResource_request;
     getLcpRecord := resolver;
     makeNodeItem := makeNodeItem |}.

(** The artifacts [artifacts], with other trace elements. *)
Definition withTraceElements {T : ArtifactTypes} (artifacts : Artifacts T)
    (elements : list TraceElement) : Artifacts T :=
  {| traces := traces artifacts;
     devtoolsLogs := devtoolsLogs artifacts;
     TraceElements := elements;
     GatherContext := GatherContext artifacts;
     URL := URL artifacts |}.

(** The phase table is the second group of the result, when there is one. *)
Definition phaseBreakdown {T : ArtifactTypes} (product : Product NodeItem)
  : option (Table NodeItem) :=
  nth_error (list_items (details product)) 1.

(** One iteration of the loop over [nodeTimings], without its completion. *)
Definition simulatedStep (lcpRecord : NetworkRecord) (timeOriginTs : float)
    (ts : LoadTs) (entry : Node * NodeTiming) : LoadTs :=
  if matchesLcp (fst entry) lcpRecord
  then (Some (startTime (snd entry) * 1000 + timeOriginTs)%float,
        Some (endTime (snd entry) * 1000 + timeOriginTs)%float)
  else ts.

(** The load timestamps the selection arrives at. *)
Definition resolvedLoadTs (metricResult : MetricResult) (lcpRecord : NetworkRecord)
    (timeOriginTs : float) : LoadTs :=
  match pessimisticEstimate metricResult with
  | Some estimate =>
      fold_left (simulatedStep lcpRecord timeOriginTs) (nodeTimings estimate)
        (None, None)
  | None =>
      (Some (networkRequestTime lcpRecord * 1000)%float,
       Some (networkEndTime lcpRecord * 1000)%float)
  end.

Section Requested.

Context {T : ArtifactTypes} {C : Collaborators T}.
Variables (artifacts : Artifacts T) (context : AuditContext T).

(** The values [makePhaseTable] binds in lines 53-62. *)
Definition processedNavigationOf : ProcessedNavigation :=
  ProcessedNavigation_request (traces artifacts DEFAULT_PASS).

Definition metricResultOf : MetricResult :=
  LargestContentfulPaint_request (metricComputationData artifacts context).

Definition mainResourceOf : NetworkRecord :=
  MainResource_request (metricComputationData artifacts context).

Definition lcpRecordOf : option NetworkRecord :=
  getLcpRecord (traces artifacts DEFAULT_PASS) processedNavigationOf
    (NetworkRecords_request (devtoolsLogs artifacts DEFAULT_PASS)).

Definition timeOriginTsOf : float := timeOrigin (timestamps processedNavigationOf).

Definition firstByteTsOf : float := (responseHeadersEndTime mainResourceOf * 1000)%float.

(** The table built from two load timestamps that are numbers. *)
Definition phaseTableAt (lcpLoadStartTs lcpLoadEndTs : float) : Table NodeItem :=
  makeTableDetails phaseHeadings
    (phaseDetails metricResultOf timeOriginTsOf firstByteTsOf lcpLoadStartTs lcpLoadEndTs).

(** The rows of the element table built by [audit]. *)
Definition elementRows : list (TableItem NodeItem) :=
  match find isLcpElement (TraceElements artifacts) with
  | Some element => [NodeRow (makeNodeItem (node element))]
  | None => []
  end.

End Requested.

(** The collaborators [C], with another LCP metric. *)
Definition withMetricResult {T : ArtifactTypes} (C : Collaborators T)
    (metric : MetricComputationData -> MetricResult) : Collaborators T :=
  {| DEFAULT_PASS := DEFAULT_PASS;
     NetworkRecords_request := NetworkRecords_request;
     ProcessedNavigation_request := ProcessedNavigation_request;
     LargestContentfulPaint_request := metric;
     MainResource_request := MainResource_request;
     getLcpRecord := getLcpRecord;
     makeNodeItem := makeNodeItem |}.

(** The collaborators [C], with another main resource. *)
Definition withMainResource {T : ArtifactTypes} (C : Collaborators T)
    (main : MetricComputationData -> NetworkRecord) : Collaborators T :=
  {| DEFAULT_PASS := DEFAULT_PASS;
     NetworkRecords_request := NetworkRecords_request;
     ProcessedNavigation_request := ProcessedNavigation_request;
     LargestContentfulPaint_request := LargestContentfulPaint_request;
     MainResource_request := main;
     getLcpRecord := getLcpRecord;
     makeNodeItem := makeNodeItem |}.

(** A metric result with another total. *)
Definition withTiming (metricResult : MetricResult) (total : float) : MetricResult :=
  {| timing := total; pessimisticEstimate := pessimisticEstimate metricResult |}.

(** A metric result whose estimate, if any, keeps the chosen entries only. *)
Definition keepEntries (keep : Node * NodeTiming -> bool) (metricResult : MetricResult)
  : MetricResult :=
  {| timing := timing metricResult;
     pessimisticEstimate :=
       match pessimisticEstimate metricResult with
       | Some estimate =>
           Some {| nodeTimings := filter keep (nodeTimings estimate) |}
       | None => None
       end |}.

(** Two LCP records with the same observed times [networkRequestTime] and
    [networkEndTime]. *)
Definition sameObservedTimes (a b : option NetworkRecord) : Prop :=
  match a, b with
  | Some r, Some r' =>
      networkRequestTime r = networkRequestTime r' /\
      networkEndTime r = networkEndTime r'
  | None, None => True
  | _, _ => False
  end.

(** ** Concrete page loads *)

Module Fixture.

(** The trace and the log are tokens; a node is known by its snippet. *)
#[export] Instance types : ArtifactTypes :=
  {| Trace := unit; DevtoolsLog := unit; GatherContextT := unit;
     SettingsT := unit; URLT := unit; NodeDetails := string; NodeItem := string |}.

Definition record (id : string) (requestTime endTime headersEnd : float)
  : NetworkRecord :=
  {| requestId := id; networkRequestTime := requestTime;
     networkEndTime := endTime; responseHeadersEndTime := headersEnd |}.

(** A page load whose computed artifacts are the given ones. *)
Definition load (origin : float) (main : NetworkRecord) (metric : MetricResult)
    (lcp : option NetworkRecord) : Collaborators types :=
  {| DEFAULT_PASS := "defaultPass";
     NetworkRecords_request := fun _ =>
       main :: match lcp with Some r => [r] | None => [] end;
     ProcessedNavigation_request := fun _ =>
       {| timestamps := {| timeOrigin := origin |} |};
     LargestContentfulPaint_request := fun _ => metric;
     MainResource_request := fun _ => main;
     getLcpRecord := fun _ _ _ => lcp;
     makeNodeItem := fun details => details |}.

Definition artifacts (elements : list TraceElement) : Artifacts types :=
  {| traces := fun pass => if String.eqb pass "defaultPass" then Some tt else None;
     devtoolsLogs := fun pass => if String.eqb pass "defaultPass" then Some tt else None;
     TraceElements := elements;
     GatherContext := tt;
     URL := tt |}.

Definition context : AuditContext types := {| settings := tt |}.

Definition lcpImage : TraceElement :=
  {| traceEventType := "largest-contentful-paint"; node := "<img src=hero.jpg>" |}.

Definition observed (t : float) : MetricResult :=
  {| timing := t; pessimisticEstimate := None |}.

Definition simulated (t : float) (entries : list (Node * NodeTiming)) : MetricResult :=
  {| timing := t; pessimisticEstimate := Some {| nodeTimings := entries |} |}.

(** An observed load: the document's headers end 200 ms after the time origin,
    the LCP image is fetched from 300 ms to 450 ms, LCP is at 650 ms. *)
Definition mainDocument : NetworkRecord := record "1" 1000 1210 1200.
Definition heroImage : NetworkRecord := record "2" 1300 1450 1320.
Definition observedLoad : Collaborators types :=
  load 1000000 mainDocument (observed 650) (Some heroImage).

(** A simulated load: the simulation fetches the image from 300 ms to 500 ms
    and puts LCP at 700 ms. *)
Definition simulatedEntries : list (Node * NodeTiming) :=
  [ (NetworkNode mainDocument, {| startTime := 0; endTime := 210 |});
    (CPUNode, {| startTime := 210; endTime := 290 |});
    (NetworkNode heroImage, {| startTime := 300; endTime := 500 |}) ].
Definition simulatedLoad : Collaborators types :=
  load 1000000 mainDocument (simulated 700 simulatedEntries) (Some heroImage).

(** An observed load with sub-millisecond timestamps. *)
Definition fineMainDocument : NetworkRecord := record "1" 1000.5 1240 1234.625.
Definition fineHeroImage : NetworkRecord := record "2" 1325.125 1479.75 1400.
Definition fineLoad : Collaborators types :=
  load 1000176 fineMainDocument (observed 992.4) (Some fineHeroImage).

(** An observed load whose image request starts before the document's headers
    end. *)
Definition earlyHeroImage : NetworkRecord := record "2" 1150 1450 1200.
Definition earlyLoad : Collaborators types :=
  load 1000000 mainDocument (observed 650) (Some earlyHeroImage).

(** The LCP element is a text node: no record backs it. *)
Definition textLoad : Collaborators types :=
  load 1000000 mainDocument (observed 650) None.

(** A simulated load whose graph has no node for the image. *)
Definition strayEntries : list (Node * NodeTiming) :=
  [ (NetworkNode mainDocument, {| startTime := 0; endTime := 210 |});
    (CPUNode, {| startTime := 210; endTime := 290 |}) ].
Definition strayLoad : Collaborators types :=
  load 1000000 mainDocument (simulated 700 strayEntries) (Some heroImage).

(** A simulated load whose image node starts at the zero of the timeline. *)
Definition zeroEntries : list (Node * NodeTiming) :=
  [ (NetworkNode heroImage, {| startTime := 0; endTime := 500 |}) ].
Definition zeroLoad : Collaborators types :=
  load 0 mainDocument (simulated 700 zeroEntries) (Some heroImage).

Definition phaseTable (ttfb loadDelay loadTime renderDelay : float) : Table string :=
  makeTableDetails phaseHeadings
    [ PhaseRow "TTFB" ttfb; PhaseRow "Load Delay" loadDelay;
      PhaseRow "Load Time" loadTime; PhaseRow "Render Delay" renderDelay ].

(** A second LCP candidate and a layout shift, as other trace elements. *)
Definition lcpHeading : TraceElement :=
  {| traceEventType := "largest-contentful-paint"; node := "<h1>" |}.
Definition shiftedBanner : TraceElement :=
  {| traceEventType := "layout-shift"; node := "<div id=banner>" |}.

(** An observed load whose main resource has no usable headers-end time. *)
Definition brokenMainDocument : NetworkRecord := record "1" 1000 1210 nan.
Definition brokenMainLoad : Collaborators types :=
  load 1000000 brokenMainDocument (observed 650) (Some heroImage).

(** A simulated load whose navigation has no usable time origin. *)
Definition brokenOriginLoad : Collaborators types :=
  load nan mainDocument (simulated 700 simulatedEntries) (Some heroImage).

(** An observed load whose image record has no request time. *)
Definition unsentHeroImage : NetworkRecord := record "2" 0 1450 1320.
Definition unsentLoad : Collaborators types :=
  load 1000000 mainDocument (observed 650) (Some unsentHeroImage).

End Fixture.

(** ** The selection of the timing source *)

Lemma bind_normal {A B : Type} (a : A) (k : A -> Completion B) :
  bind (Normal a) k = k a.
Proof. reflexivity. Qed.

Lemma isLcpNode_matches (node : Node) (lcpRecord : NetworkRecord) :
  isLcpNode node lcpRecord = Normal (matchesLcp node lcpRecord).
Proof. destruct node as [r|]; reflexivity. Qed.

(** The loop never throws: the access [node.record.requestId] is reached on
    network nodes only. *)
Lemma forNodeTimings_fold (entries : list (Node * NodeTiming))
    (lcpRecord : NetworkRecord) (timeOriginTs : float) (ts : LoadTs) :
  forNodeTimings entries lcpRecord timeOriginTs ts =
  Normal (fold_left (simulatedStep lcpRecord timeOriginTs) entries ts).
Proof.
  revert ts.
  induction entries as [|[node timing] rest IH]; intros ts; simpl.
  - reflexivity.
  - rewrite isLcpNode_matches, bind_normal, IH. reflexivity.
Qed.

Lemma selectLoadTs_resolved (metricResult : MetricResult)
    (lcpRecord : NetworkRecord) (timeOriginTs : float) :
  selectLoadTs metricResult lcpRecord timeOriginTs =
  Normal (resolvedLoadTs metricResult lcpRecord timeOriginTs).
Proof.
  unfold selectLoadTs, resolvedLoadTs.
  destruct (pessimisticEstimate metricResult) as [estimate|].
  - apply forNodeTimings_fold.
  - reflexivity.
Qed.

Lemma fold_simulatedStep_no_match (entries : list (Node * NodeTiming))
    (lcpRecord : NetworkRecord) (timeOriginTs : float) (ts : LoadTs) :
  (forall entry, In entry entries -> matchesLcp (fst entry) lcpRecord = false) ->
  fold_left (simulatedStep lcpRecord timeOriginTs) entries ts = ts.
Proof.
  revert ts.
  induction entries as [|entry rest IH]; intros ts Hno; simpl.
  - reflexivity.
  - rewrite IH by (intros e He; apply Hno; right; exact He).
    unfold simulatedStep. rewrite (Hno entry) by (left; reflexivity).
    reflexivity.
Qed.

Lemma fold_simulatedStep_last_match (before after : list (Node * NodeTiming))
    (node : Node) (timing : NodeTiming)
    (lcpRecord : NetworkRecord) (timeOriginTs : float) (ts : LoadTs) :
  matchesLcp node lcpRecord = true ->
  (forall entry, In entry after -> matchesLcp (fst entry) lcpRecord = false) ->
  fold_left (simulatedStep lcpRecord timeOriginTs)
    (before ++ (node, timing) :: after) ts =
  (Some (startTime timing * 1000 + timeOriginTs)%float,
   Some (endTime timing * 1000 + timeOriginTs)%float).
Proof.
  intros Hhit Hno.
  rewrite fold_left_app. simpl.
  rewrite fold_simulatedStep_no_match by exact Hno.
  unfold simulatedStep at 1. simpl. rewrite Hhit. reflexivity.
Qed.

Lemma matchesLcp_requestId (node : Node) (r r' : NetworkRecord) :
  requestId r = requestId r' -> matchesLcp node r = matchesLcp node r'.
Proof. intros Hid. destruct node; simpl; [rewrite Hid|]; reflexivity. Qed.

Lemma fold_simulatedStep_requestId (entries : list (Node * NodeTiming))
    (r r' : NetworkRecord) (timeOriginTs : float) (ts : LoadTs) :
  requestId r = requestId r' ->
  fold_left (simulatedStep r timeOriginTs) entries ts =
  fold_left (simulatedStep r' timeOriginTs) entries ts.
Proof.
  intros Hid. revert ts.
  induction entries as [|entry rest IH]; intros ts; simpl.
  - reflexivity.
  - unfold simulatedStep at 2 4.
    rewrite (matchesLcp_requestId (fst entry) r r' Hid). apply IH.
Qed.

(** ** The phase table *)

Section PhaseTable.

Context {T : ArtifactTypes} {C : Collaborators T}.
Variables (artifacts : Artifacts T) (context : AuditContext T).

(** [makePhaseTable] without its completions: it returns on every input. *)
Lemma makePhaseTable_unfold :
  makePhaseTable artifacts context =
  Normal
    match lcpRecordOf artifacts with
    | None => None
    | Some lcpRecord =>
        match resolvedLoadTs (metricResultOf artifacts context) lcpRecord
                (timeOriginTsOf artifacts) with
        | (Some s, Some e) =>
            if Js.toBoolean s && Js.toBoolean e then Some (phaseTableAt artifacts context s e) else None
        | _ => None
        end
    end.
Proof.
  unfold makePhaseTable, lcpRecordOf, phaseTableAt, metricResultOf, timeOriginTsOf,
    firstByteTsOf, mainResourceOf, processedNavigationOf.
  cbv zeta.
  destruct (getLcpRecord _ _ _) as [lcpRecord|]; [|reflexivity].
  rewrite selectLoadTs_resolved, bind_normal.
  destruct (resolvedLoadTs _ _ _) as [[s|] [e|]]; simpl; try reflexivity.
  - unfold Js.not; simpl.
    destruct (Js.toBoolean s), (Js.toBoolean e); reflexivity.
  - destruct (Js.not (Some s)); reflexivity.
Qed.

(** What is known when a table is produced. *)
Lemma makePhaseTable_produced (table : Table NodeItem) :
  makePhaseTable artifacts context = Normal (Some table) ->
  exists lcpRecord s e,
    lcpRecordOf artifacts = Some lcpRecord /\
    resolvedLoadTs (metricResultOf artifacts context) lcpRecord
      (timeOriginTsOf artifacts) = (Some s, Some e) /\
    Js.toBoolean s = true /\ Js.toBoolean e = true /\
    table = phaseTableAt artifacts context s e.
Proof.
  rewrite makePhaseTable_unfold. intros H.
  destruct (lcpRecordOf artifacts) as [lcpRecord|]; [|discriminate].
  destruct (resolvedLoadTs _ _ _) as [[s|] [e|]] eqn:Hts; try discriminate.
  destruct (Js.toBoolean s) eqn:Hs, (Js.toBoolean e) eqn:He; try discriminate.
  injection H as <-.
  exists lcpRecord, s, e. repeat split; assumption.
Qed.

Lemma audit_unfold :
  audit artifacts context =
  bind (makePhaseTable artifacts context) (fun phaseTable =>
    Normal {| score := 1;
              notApplicable := Nat.eqb (length (elementRows artifacts)) 0;
              displayValue :=
                str_ "displayValueElementsFound"
                  [("nodeCount", length (elementRows artifacts))];
              details :=
                makeListDetails
                  (makeTableDetails elementHeadings (elementRows artifacts) ::
                   match phaseTable with Some table => [table] | None => [] end) |}).
Proof.
  unfold audit, elementRows. cbv zeta.
  destruct (find isLcpElement (TraceElements artifacts));
    destruct (makePhaseTable artifacts context) as [[table|]|]; reflexivity.
Qed.

Lemma elementRows_notApplicable :
  Nat.eqb (length (elementRows artifacts)) 0 =
  negb (existsb isLcpElement (TraceElements artifacts)).
Proof.
  unfold elementRows.
  induction (TraceElements artifacts) as [|element rest IH]; simpl.
  - reflexivity.
  - destruct (isLcpElement element); simpl; [reflexivity|exact IH].
Qed.

End PhaseTable.

(** ** The phases and the total *)

(** C1, counterexample: on an observed load with sub-millisecond timestamps
    the table is produced, and the four emitted durations, added in the order
    TTFB, load delay, load time, render delay, are 992.4000000000001 while
    [metricResult.timing] is 992.4 : the sum is not exact in binary64. *)
Lemma phases_sum_misses_timing :
  @makePhaseTable _ Fixture.fineLoad (Fixture.artifacts [Fixture.lcpImage])
    Fixture.context
  = Normal (Some (Fixture.phaseTable 234.449 90.5 154.625 512.826)) /\
  timing (@metricResultOf _ Fixture.fineLoad (Fixture.artifacts [Fixture.lcpImage])
            Fixture.context) = 992.4%float /\
  (Js.sum4 234.449 90.5 154.625 512.826 =? 992.4)%float = false.
Proof. repeat split; reflexivity. Qed.

(** C1, amended: whenever a phase breakdown is produced, its four rows are
    TTFB, load delay, load time and render delay, and the render delay is the
    binary64 residual [timing - loadTime - loadDelay - ttfb] of the three
    emitted durations; the sum of the four equals [timing] up to the rounding
    of these operations only. *)
Theorem renderDelay_is_the_residual {T : ArtifactTypes} {C : Collaborators T}
    (artifacts : Artifacts T) (context : AuditContext T) (table : Table NodeItem) :
  makePhaseTable artifacts context = Normal (Some table) ->
  exists ttfb loadDelay loadTime renderDelay : float,
    items table =
      [ PhaseRow "TTFB" ttfb; PhaseRow "Load Delay" loadDelay;
        PhaseRow "Load Time" loadTime; PhaseRow "Render Delay" renderDelay ] /\
    renderDelay =
      (timing (metricResultOf artifacts context) - loadTime - loadDelay - ttfb)%float.
Proof.
  intros H.
  destruct (makePhaseTable_produced artifacts context table H)
    as (lcpRecord & s & e & _ & _ & _ & _ & ->).
  unfold phaseTableAt, phaseDetails, makeTableDetails; simpl.
  do 4 eexists. split; reflexivity.
Qed.

Lemma renderDelay_is_the_residual_witness :
  exists ttfb loadDelay loadTime renderDelay : float,
    items (Fixture.phaseTable 200 100 150 200) =
      [ PhaseRow "TTFB" ttfb; PhaseRow "Load Delay" loadDelay;
        PhaseRow "Load Time" loadTime; PhaseRow "Render Delay" renderDelay ] /\
    renderDelay = (650 - loadTime - loadDelay - ttfb)%float.
Proof.
  apply (@renderDelay_is_the_residual Fixture.types Fixture.observedLoad
           (Fixture.artifacts [Fixture.lcpImage]) Fixture.context
           (Fixture.phaseTable 200 100 150 200)).
  reflexivity.
Defined.

(** ** Negative durations *)

(** C2, counterexample: the image request starts 50 ms before the document's
    headers end; the load delay is negative and the table is produced with
    it. *)
Lemma negative_load_delay_is_emitted :
  @makePhaseTable _ Fixture.earlyLoad (Fixture.artifacts [Fixture.lcpImage])
    Fixture.context
  = Normal (Some (Fixture.phaseTable 200 (-50) 300 200)) /\
  (-50 <? 0)%float = true.
Proof. split; reflexivity. Qed.

(** C2, amended: the signs of the durations are never tested.  The table is
    produced exactly when an LCP record is resolved and both load timestamps
    are truthy (defined, not zero, not NaN), and it then carries the durations
    as computed from these timestamps, negative ones included. *)
Theorem table_produced_iff_timestamps_truthy {T : ArtifactTypes}
    {C : Collaborators T} (artifacts : Artifacts T) (context : AuditContext T)
    (table : Table NodeItem) :
  makePhaseTable artifacts context = Normal (Some table) <->
  exists lcpRecord s e,
    lcpRecordOf artifacts = Some lcpRecord /\
    selectLoadTs (metricResultOf artifacts context) lcpRecord
      (timeOriginTsOf artifacts) = Normal (Some s, Some e) /\
    Js.truthy (Some s) = true /\ Js.truthy (Some e) = true /\
    table = phaseTableAt artifacts context s e.
Proof.
  split.
  - intros H.
    destruct (makePhaseTable_produced artifacts context table H)
      as (lcpRecord & s & e & Hlcp & Hts & Hs & He & ->).
    exists lcpRecord, s, e.
    rewrite selectLoadTs_resolved, Hts. auto.
  - intros (lcpRecord & s & e & Hlcp & Hts & Hs & He & ->).
    rewrite selectLoadTs_resolved in Hts. injection Hts as Hts.
    simpl in Hs, He.
    rewrite makePhaseTable_unfold, Hlcp, Hts, Hs, He. reflexivity.
Qed.

(** ** The two timing sources *)

(** C3, counterexample: on the observed load the record's
    [networkRequestTime] is 1300 and its [networkEndTime] 1450, and the load
    timestamps are 1300000 and 1450000: the observed times are multiplied by
    1000, not used as they are. *)
Lemma observed_times_are_scaled :
  selectLoadTs (Fixture.observed 650) Fixture.heroImage 1000000
  = Normal (Some 1300000%float, Some 1450000%float) /\
  (1300000 =? networkRequestTime Fixture.heroImage)%float = false /\
  (1450000 =? networkEndTime Fixture.heroImage)%float = false.
Proof. repeat split; reflexivity. Qed.

(** C3, amended: with a [pessimisticEstimate], the load timestamps are
    [startTime * 1000 + timeOrigin] and [endTime * 1000 + timeOrigin] of the
    last entry of [nodeTimings] whose node is a network node with the request
    id of the LCP record (the only one, when there is one such node); with no
    estimate they are the record's [networkRequestTime * 1000] and
    [networkEndTime * 1000]. *)
Theorem selectLoadTs_sources (metricResult : MetricResult)
    (lcpRecord : NetworkRecord) (timeOriginTs : float) :
  (forall estimate before node nodeTiming after,
     pessimisticEstimate metricResult = Some estimate ->
     nodeTimings estimate = before ++ (node, nodeTiming) :: after ->
     matchesLcp node lcpRecord = true ->
     (forall entry, In entry after -> matchesLcp (fst entry) lcpRecord = false) ->
     selectLoadTs metricResult lcpRecord timeOriginTs =
     Normal (Some (startTime nodeTiming * 1000 + timeOriginTs)%float,
             Some (endTime nodeTiming * 1000 + timeOriginTs)%float)) /\
  (pessimisticEstimate metricResult = None ->
     selectLoadTs metricResult lcpRecord timeOriginTs =
     Normal (Some (networkRequestTime lcpRecord * 1000)%float,
             Some (networkEndTime lcpRecord * 1000)%float)).
Proof.
  split.
  - intros estimate before node nodeTiming after Hest Hentries Hhit Hno.
    rewrite selectLoadTs_resolved. unfold resolvedLoadTs.
    rewrite Hest, Hentries.
    rewrite (fold_simulatedStep_last_match before after node nodeTiming
               lcpRecord timeOriginTs (None, None) Hhit Hno).
    reflexivity.
  - intros Hnone. unfold selectLoadTs. rewrite Hnone. reflexivity.
Qed.

Lemma selectLoadTs_sources_witness :
  selectLoadTs (Fixture.simulated 700 Fixture.simulatedEntries)
    Fixture.heroImage 1000000
  = Normal (Some (300 * 1000 + 1000000)%float, Some (500 * 1000 + 1000000)%float) /\
  selectLoadTs (Fixture.observed 650) Fixture.heroImage 1000000
  = Normal (Some (1300 * 1000)%float, Some (1450 * 1000)%float).
Proof.
  split.
  - apply (proj1 (selectLoadTs_sources
                    (Fixture.simulated 700 Fixture.simulatedEntries)
                    Fixture.heroImage 1000000)
             {| nodeTimings := Fixture.simulatedEntries |}
             [ (NetworkNode Fixture.mainDocument, {| startTime := 0; endTime := 210 |});
               (CPUNode, {| startTime := 210; endTime := 290 |}) ]
             (NetworkNode Fixture.heroImage)
             {| startTime := 300; endTime := 500 |}
             []).
    + reflexivity.
    + reflexivity.
    + reflexivity.
    + intros entry [].
  - apply (proj2 (selectLoadTs_sources (Fixture.observed 650)
                    Fixture.heroImage 1000000)).
    reflexivity.
Defined.

(** ** TTFB *)

(** C4, counterexample: on the observed load the first byte is at
    [1200 * 1000 = 1200000] and the time origin at 1000000; the emitted TTFB
    is 200, not their difference 200000. *)
Lemma ttfb_is_not_the_timestamp_difference :
  @makePhaseTable _ Fixture.observedLoad (Fixture.artifacts [Fixture.lcpImage])
    Fixture.context
  = Normal (Some (Fixture.phaseTable 200 100 150 200)) /\
  (@firstByteTsOf _ Fixture.observedLoad (Fixture.artifacts [Fixture.lcpImage])
     Fixture.context
   - @timeOriginTsOf _ Fixture.observedLoad (Fixture.artifacts [Fixture.lcpImage])
   )%float = 200000%float /\
  (200 =? 200000)%float = false.
Proof. repeat split; reflexivity. Qed.

(** C4, amended: whenever a phase breakdown is produced, its first row is the
    TTFB phase, equal to [(firstByteTs - timeOriginTs) / 1000] where
    [firstByteTs] is the main resource's [responseHeadersEndTime * 1000] and
    [timeOriginTs] the time origin of the navigation; no field of the LCP
    record enters it. *)
Theorem ttfb_from_main_resource {T : ArtifactTypes} {C : Collaborators T}
    (artifacts : Artifacts T) (context : AuditContext T) (table : Table NodeItem) :
  makePhaseTable artifacts context = Normal (Some table) ->
  nth_error (items table) 0 =
  Some (PhaseRow "TTFB"
          ((responseHeadersEndTime (mainResourceOf artifacts context) * 1000
            - timeOrigin (timestamps (processedNavigationOf artifacts))) / 1000)%float).
Proof.
  intros H.
  destruct (makePhaseTable_produced artifacts context table H)
    as (lcpRecord & s & e & _ & _ & _ & _ & ->).
  reflexivity.
Qed.

Lemma ttfb_from_main_resource_witness :
  nth_error (items (Fixture.phaseTable 200 100 200 200)) 0 =
  Some (PhaseRow "TTFB" ((1200 * 1000 - 1000000) / 1000)%float).
Proof.
  apply (@ttfb_from_main_resource Fixture.types Fixture.simulatedLoad
           (Fixture.artifacts [Fixture.lcpImage]) Fixture.context
           (Fixture.phaseTable 200 100 200 200)).
  reflexivity.
Defined.

(** ** One timing source per breakdown *)

(** C5: with a [pessimisticEstimate], two runs whose LCP records differ at
    most in [networkRequestTime] and [networkEndTime] return the same thing;
    with no estimate, what is returned is computed from the record's
    [networkRequestTime * 1000] and [networkEndTime * 1000] alone, and there
    is no simulation timing to read. *)
Theorem one_timing_source {T : ArtifactTypes} (C : Collaborators T)
    (artifacts : Artifacts T) (context : AuditContext T) :
  (pessimisticEstimate (metricResultOf artifacts context) <> None ->
   forall resolver resolver',
     (forall trace navigation records,
        sameButObservedTimes (resolver trace navigation records)
          (resolver' trace navigation records)) ->
     @makePhaseTable T (withLcpRecord C resolver) artifacts context =
     @makePhaseTable T (withLcpRecord C resolver') artifacts context) /\
  (pessimisticEstimate (metricResultOf artifacts context) = None ->
   makePhaseTable artifacts context =
   Normal
     match lcpRecordOf artifacts with
     | None => None
     | Some lcpRecord =>
         let lcpLoadStartTs := (networkRequestTime lcpRecord * 1000)%float in
         let lcpLoadEndTs := (networkEndTime lcpRecord * 1000)%float in
         if Js.toBoolean lcpLoadStartTs && Js.toBoolean lcpLoadEndTs
         then Some (phaseTableAt artifacts context lcpLoadStartTs lcpLoadEndTs)
         else None
     end).
Proof.
  split.
  - intros Hsim resolver resolver' Hsame.
    rewrite !makePhaseTable_unfold. f_equal.
    unfold lcpRecordOf, phaseTableAt, metricResultOf, timeOriginTsOf, firstByteTsOf,
      mainResourceOf, processedNavigationOf, metricComputationData in *.
    cbn [withLcpRecord getLcpRecord DEFAULT_PASS NetworkRecords_request
         ProcessedNavigation_request LargestContentfulPaint_request
         MainResource_request] in *.
    match goal with
    | |- context [resolver ?t ?n ?r] => specialize (Hsame t n r)
    end.
    destruct (resolver _ _ _) as [r|], (resolver' _ _ _) as [r'|];
      simpl in Hsame; try contradiction; [|reflexivity].
    destruct Hsame as [Hid _].
    unfold resolvedLoadTs.
    destruct (pessimisticEstimate _) as [estimate|]; [|contradiction Hsim; reflexivity].
    rewrite (fold_simulatedStep_requestId (nodeTimings estimate) r r' _ _ Hid).
    reflexivity.
  - intros Hobs.
    rewrite makePhaseTable_unfold. f_equal.
    destruct (lcpRecordOf artifacts) as [lcpRecord|]; [|reflexivity].
    unfold resolvedLoadTs. rewrite Hobs. reflexivity.
Qed.

Lemma one_timing_source_witness :
  @makePhaseTable _
    (withLcpRecord Fixture.simulatedLoad (fun _ _ _ => Some Fixture.heroImage))
    (Fixture.artifacts [Fixture.lcpImage]) Fixture.context =
  @makePhaseTable _
    (withLcpRecord Fixture.simulatedLoad
       (fun _ _ _ => Some (Fixture.record "2" 7 9 1320)))
    (Fixture.artifacts [Fixture.lcpImage]) Fixture.context /\
  @makePhaseTable _ Fixture.observedLoad (Fixture.artifacts [Fixture.lcpImage])
    Fixture.context =
  Normal (Some (phaseTableAt (C := Fixture.observedLoad)
                  (Fixture.artifacts [Fixture.lcpImage]) Fixture.context
                  (1300 * 1000) (1450 * 1000))).
Proof.
  split.
  - apply (proj1 (one_timing_source Fixture.simulatedLoad
                    (Fixture.artifacts [Fixture.lcpImage]) Fixture.context)).
    + discriminate.
    + intros trace navigation records. split; reflexivity.
  - apply (proj2 (one_timing_source Fixture.observedLoad
                    (Fixture.artifacts [Fixture.lcpImage]) Fixture.context)).
    reflexivity.
Defined.

(** ** Exits without a table *)

(** C6: when [lcpLoadStartTs] or [lcpLoadEndTs] is undefined or zero after the
    selection, and in particular when there is an estimate none of whose nodes
    is a network node with the request id of the LCP record, no phase table is
    produced. *)
Theorem no_table_without_load_timestamps {T : ArtifactTypes} {C : Collaborators T}
    (artifacts : Artifacts T) (context : AuditContext T)
    (lcpRecord : NetworkRecord) (lcpLoadStartTs lcpLoadEndTs : option float) :
  lcpRecordOf artifacts = Some lcpRecord ->
  selectLoadTs (metricResultOf artifacts context) lcpRecord (timeOriginTsOf artifacts)
    = Normal (lcpLoadStartTs, lcpLoadEndTs) ->
  lcpLoadStartTs = None \/
  (exists ts, lcpLoadStartTs = Some ts /\ (ts =? 0)%float = true) \/
  lcpLoadEndTs = None \/
  (exists ts, lcpLoadEndTs = Some ts /\ (ts =? 0)%float = true) \/
  (exists estimate,
     pessimisticEstimate (metricResultOf artifacts context) = Some estimate /\
     forall entry, In entry (nodeTimings estimate) ->
                   matchesLcp (fst entry) lcpRecord = false) ->
  makePhaseTable artifacts context = Normal None.
Proof.
  intros Hlcp Hts Hcase.
  rewrite selectLoadTs_resolved in Hts. injection Hts as Hts.
  rewrite makePhaseTable_unfold, Hlcp. f_equal.
  assert (Hfalsy : forall ts, (ts =? 0)%float = true -> Js.toBoolean ts = false).
  { intros ts Hz. unfold Js.toBoolean. rewrite Hz. reflexivity. }
  destruct Hcase as [-> | [(ts & -> & Hz) | [-> | [(ts & -> & Hz) | Hstray]]]].
  - rewrite Hts. reflexivity.
  - rewrite Hts, (Hfalsy ts Hz). destruct lcpLoadEndTs; reflexivity.
  - rewrite Hts. destruct lcpLoadStartTs; reflexivity.
  - rewrite Hts, (Hfalsy ts Hz).
    destruct lcpLoadStartTs; [rewrite andb_false_r|]; reflexivity.
  - destruct Hstray as (estimate & Hest & Hno).
    unfold resolvedLoadTs. rewrite Hest.
    rewrite fold_simulatedStep_no_match by exact Hno. reflexivity.
Qed.

Lemma no_table_without_load_timestamps_witness :
  @makePhaseTable _ Fixture.zeroLoad (Fixture.artifacts [Fixture.lcpImage])
    Fixture.context = Normal None /\
  @makePhaseTable _ Fixture.strayLoad (Fixture.artifacts [Fixture.lcpImage])
    Fixture.context = Normal None.
Proof.
  split.
  - apply (@no_table_without_load_timestamps Fixture.types Fixture.zeroLoad
             (Fixture.artifacts [Fixture.lcpImage]) Fixture.context
             Fixture.heroImage (Some 0%float) (Some 500000%float)).
    + reflexivity.
    + reflexivity.
    + right; left. exists 0%float. split; reflexivity.
  - apply (@no_table_without_load_timestamps Fixture.types Fixture.strayLoad
             (Fixture.artifacts [Fixture.lcpImage]) Fixture.context
             Fixture.heroImage None None).
    + reflexivity.
    + reflexivity.
    + do 4 right. exists {| nodeTimings := Fixture.strayEntries |}.
      split; [reflexivity|].
      intros entry [<- | [<- | []]]; reflexivity.
Defined.

(** C7: when no network record is resolved for the LCP element,
    [makePhaseTable] returns [undefined] at once, and the result of [audit]
    has one group only, the element table. *)
Theorem no_record_no_phase_table {T : ArtifactTypes} {C : Collaborators T}
    (artifacts : Artifacts T) (context : AuditContext T) :
  lcpRecordOf artifacts = None ->
  makePhaseTable artifacts context = Normal None /\
  exists product,
    audit artifacts context = Normal product /\
    list_items (details product) =
      [ makeTableDetails elementHeadings (elementRows artifacts) ].
Proof.
  intros Hnone.
  assert (Hphase : makePhaseTable artifacts context = Normal None).
  { unfold makePhaseTable. cbv zeta.
    change (getLcpRecord _ _ _) with (lcpRecordOf artifacts).
    rewrite Hnone. reflexivity. }
  split; [exact Hphase|].
  rewrite audit_unfold, Hphase, bind_normal.
  eexists. split; reflexivity.
Qed.

Lemma no_record_no_phase_table_witness :
  @makePhaseTable _ Fixture.textLoad (Fixture.artifacts [Fixture.lcpImage])
    Fixture.context = Normal None /\
  exists product,
    @audit _ Fixture.textLoad (Fixture.artifacts [Fixture.lcpImage])
      Fixture.context = Normal product /\
    list_items (details product) =
      [ @makeTableDetails Fixture.types elementHeadings
          [NodeRow "<img src=hero.jpg>"] ].
Proof.
  apply (@no_record_no_phase_table Fixture.types Fixture.textLoad
           (Fixture.artifacts [Fixture.lcpImage]) Fixture.context).
  reflexivity.
Defined.

(** C8: [audit] never throws: on every input it returns a result, whose first
    group is the element table and whose second group, if any, is what
    [makePhaseTable] returned. *)
Theorem audit_never_throws {T : ArtifactTypes} {C : Collaborators T}
    (artifacts : Artifacts T) (context : AuditContext T) :
  exists (phaseTable : option (Table NodeItem)) (product : Product NodeItem),
    makePhaseTable artifacts context = Normal phaseTable /\
    audit artifacts context = Normal product /\
    list_items (details product) =
      makeTableDetails elementHeadings (elementRows artifacts) ::
      match phaseTable with Some table => [table] | None => [] end.
Proof.
  rewrite audit_unfold, makePhaseTable_unfold, bind_normal.
  do 2 eexists. repeat split; reflexivity.
Qed.

(** C9: a phase breakdown that is produced has exactly four rows, in the order
    TTFB, Load Delay, Load Time, Render Delay. *)
Theorem four_phases_in_order {T : ArtifactTypes} {C : Collaborators T}
    (artifacts : Artifacts T) (context : AuditContext T) (table : Table NodeItem) :
  makePhaseTable artifacts context = Normal (Some table) ->
  length (items table) = 4 /\
  exists ttfb loadDelay loadTime renderDelay : float,
    items table =
      [ PhaseRow "TTFB" ttfb; PhaseRow "Load Delay" loadDelay;
        PhaseRow "Load Time" loadTime; PhaseRow "Render Delay" renderDelay ].
Proof.
  intros H.
  destruct (makePhaseTable_produced artifacts context table H)
    as (lcpRecord & s & e & _ & _ & _ & _ & ->).
  split; [reflexivity|].
  do 4 eexists. reflexivity.
Qed.

Lemma four_phases_in_order_witness :
  length (items (Fixture.phaseTable 200 100 200 200)) = 4 /\
  exists ttfb loadDelay loadTime renderDelay : float,
    items (Fixture.phaseTable 200 100 200 200) =
      [ PhaseRow "TTFB" ttfb; PhaseRow "Load Delay" loadDelay;
        PhaseRow "Load Time" loadTime; PhaseRow "Render Delay" renderDelay ].
Proof.
  apply (@four_phases_in_order Fixture.types Fixture.simulatedLoad
           (Fixture.artifacts []) Fixture.context
           (Fixture.phaseTable 200 100 200 200)).
  reflexivity.
Defined.

(** ** The flag and the table *)

(** C10: the score is always 1 and [notApplicable] says that no trace element
    has the type ['largest-contentful-paint']; the phase table does not read
    the trace elements; and on the simulated load with no trace element the
    result is not applicable and has a phase breakdown all the same. *)
Theorem notApplicable_apart_from_phase_table :
  (forall (T : ArtifactTypes) (C : Collaborators T)
          (artifacts : Artifacts T) (context : AuditContext T),
     exists product,
       audit artifacts context = Normal product /\
       score product = 1%float /\
       notApplicable product =
         negb (existsb isLcpElement (TraceElements artifacts)) /\
       makePhaseTable artifacts context = Normal (phaseBreakdown product)) /\
  (forall (T : ArtifactTypes) (C : Collaborators T)
          (artifacts : Artifacts T) (context : AuditContext T)
          (elements : list TraceElement),
     makePhaseTable (withTraceElements artifacts elements) context =
     makePhaseTable artifacts context) /\
  (exists product,
     @audit _ Fixture.simulatedLoad (Fixture.artifacts []) Fixture.context
       = Normal product /\
     notApplicable product = true /\
     items (makeTableDetails elementHeadings
              (elementRows (C := Fixture.simulatedLoad) (Fixture.artifacts []))) = [] /\
     phaseBreakdown product = Some (Fixture.phaseTable 200 100 200 200)).
Proof.
  split; [|split].
  - intros T C artifacts context.
    rewrite audit_unfold, makePhaseTable_unfold, bind_normal.
    eexists. split; [reflexivity|].
    split; [reflexivity|].
    split; [apply elementRows_notApplicable|].
    unfold phaseBreakdown; simpl.
    match goal with |- Normal ?x = _ => destruct x end; reflexivity.
  - intros T C artifacts context elements. reflexivity.
  - eexists. repeat split.
Qed.

(** ** The element table *)

Lemma find_after_misses {A : Type} (test : A -> bool) (before after : list A) (x : A) :
  (forall y, In y before -> test y = false) ->
  test x = true ->
  find test (before ++ x :: after) = Some x.
Proof.
  intros Hmiss Hhit.
  induction before as [|y rest IH]; simpl.
  - rewrite Hhit. reflexivity.
  - rewrite (Hmiss y) by (left; reflexivity).
    apply IH. intros z Hz. apply Hmiss. right. exact Hz.
Qed.

(** X1: the element table lists the first trace element of type
    ['largest-contentful-paint'] and no other: the result has that one row,
    counts one node and is applicable, whatever follows in [TraceElements]. *)
Theorem audit_lists_first_lcp_element {T : ArtifactTypes} {C : Collaborators T}
    (artifacts : Artifacts T) (context : AuditContext T)
    (before after : list TraceElement) (element : TraceElement) :
  TraceElements artifacts = before ++ element :: after ->
  (forall other, In other before -> isLcpElement other = false) ->
  isLcpElement element = true ->
  exists product,
    audit artifacts context = Normal product /\
    nth_error (list_items (details product)) 0 =
      Some (makeTableDetails elementHeadings [NodeRow (makeNodeItem (node element))]) /\
    notApplicable product = false /\
    displayValue product = str_ "displayValueElementsFound" [("nodeCount", 1)].
Proof.
  intros Helements Hmiss Hhit.
  rewrite audit_unfold, makePhaseTable_unfold, bind_normal.
  unfold elementRows.
  rewrite Helements, (find_after_misses isLcpElement before after element Hmiss Hhit).
  eexists. repeat split.
Qed.

Lemma audit_lists_first_lcp_element_witness :
  exists product,
    @audit _ Fixture.observedLoad
      (Fixture.artifacts
         [Fixture.shiftedBanner; Fixture.lcpImage; Fixture.lcpHeading])
      Fixture.context = Normal product /\
    nth_error (list_items (details product)) 0 =
      Some (@makeTableDetails Fixture.types elementHeadings
              [NodeRow "<img src=hero.jpg>"]) /\
    notApplicable product = false /\
    displayValue product = str_ "displayValueElementsFound" [("nodeCount", 1)].
Proof.
  apply (@audit_lists_first_lcp_element Fixture.types Fixture.observedLoad
           (Fixture.artifacts
              [Fixture.shiftedBanner; Fixture.lcpImage; Fixture.lcpHeading])
           Fixture.context
           [Fixture.shiftedBanner] [Fixture.lcpHeading] Fixture.lcpImage).
  - reflexivity.
  - intros other [<- | []]. reflexivity.
  - reflexivity.
Defined.

(** X2: the parts of a result agree with one another: the node count of the
    display value is the number of rows of the element table, which is 0 or 1;
    the result is not applicable exactly when that count is 0; and the result
    has one group or two, the element table first. *)
Theorem audit_result_is_consistent {T : ArtifactTypes} {C : Collaborators T}
    (artifacts : Artifacts T) (context : AuditContext T) :
  exists product elementTable rest,
    audit artifacts context = Normal product /\
    list_items (details product) = elementTable :: rest /\
    length rest <= 1 /\
    length (items elementTable) <= 1 /\
    displayValue product =
      str_ "displayValueElementsFound" [("nodeCount", length (items elementTable))] /\
    (notApplicable product = true <-> items elementTable = []).
Proof.
  rewrite audit_unfold, makePhaseTable_unfold, bind_normal.
  do 3 eexists. split; [reflexivity|]. simpl.
  split; [reflexivity|].
  split.
  { match goal with |- length (match ?x with _ => _ end) <= 1 => destruct x end;
      simpl; auto. }
  unfold elementRows.
  destruct (find isLcpElement (TraceElements artifacts)); simpl.
  - repeat split; auto; discriminate.
  - repeat split; auto.
Qed.

(** ** What the simulated branch reads *)

Lemma fold_simulatedStep_filter (keep : Node * NodeTiming -> bool)
    (entries : list (Node * NodeTiming))
    (lcpRecord : NetworkRecord) (timeOriginTs : float) (ts : LoadTs) :
  (forall entry, matchesLcp (fst entry) lcpRecord = true -> keep entry = true) ->
  fold_left (simulatedStep lcpRecord timeOriginTs) (filter keep entries) ts =
  fold_left (simulatedStep lcpRecord timeOriginTs) entries ts.
Proof.
  intros Hkeep. revert ts.
  induction entries as [|entry rest IH]; intros ts; simpl.
  - reflexivity.
  - destruct (keep entry) eqn:Hk; simpl.
    + apply IH.
    + rewrite IH. f_equal. unfold simulatedStep.
      destruct (matchesLcp (fst entry) lcpRecord) eqn:Hm; [|reflexivity].
      rewrite (Hkeep entry Hm) in Hk. discriminate.
Qed.

(** X3: the entries of [nodeTimings] whose node is not a network node with the
    request id of the LCP record are never used: dropping any of them from the
    estimate leaves what [makePhaseTable] returns unchanged. *)
Theorem unmatched_entries_are_ignored {T : ArtifactTypes} (C : Collaborators T)
    (artifacts : Artifacts T) (context : AuditContext T)
    (lcpRecord : NetworkRecord) (keep : Node * NodeTiming -> bool) :
  lcpRecordOf artifacts = Some lcpRecord ->
  (forall entry, matchesLcp (fst entry) lcpRecord = true -> keep entry = true) ->
  @makePhaseTable T
    (withMetricResult C (fun data => keepEntries keep (LargestContentfulPaint_request data)))
    artifacts context =
  makePhaseTable artifacts context.
Proof.
  intros Hlcp Hkeep.
  rewrite !makePhaseTable_unfold. f_equal.
  unfold lcpRecordOf, phaseTableAt, metricResultOf, timeOriginTsOf, firstByteTsOf,
    mainResourceOf, processedNavigationOf, metricComputationData in *.
  cbn [withMetricResult getLcpRecord DEFAULT_PASS NetworkRecords_request
       ProcessedNavigation_request LargestContentfulPaint_request
       MainResource_request] in *.
  rewrite Hlcp.
  unfold resolvedLoadTs, keepEntries; simpl.
  destruct (pessimisticEstimate _) as [estimate|]; simpl; [|reflexivity].
  rewrite (fold_simulatedStep_filter keep (nodeTimings estimate) lcpRecord _ _ Hkeep).
  reflexivity.
Qed.

Lemma unmatched_entries_are_ignored_witness :
  @makePhaseTable _
    (withMetricResult Fixture.simulatedLoad
       (fun _ => Fixture.simulated 700
          [ (NetworkNode Fixture.heroImage, {| startTime := 300; endTime := 500 |}) ]))
    (Fixture.artifacts [Fixture.lcpImage]) Fixture.context =
  @makePhaseTable _ Fixture.simulatedLoad
    (Fixture.artifacts [Fixture.lcpImage]) Fixture.context.
Proof.
  apply (unmatched_entries_are_ignored Fixture.simulatedLoad
           (Fixture.artifacts [Fixture.lcpImage]) Fixture.context
           Fixture.heroImage
           (fun entry => matchesLcp (fst entry) Fixture.heroImage)).
  - reflexivity.
  - intros entry Hm. exact Hm.
Defined.

(** X4: the total [metricResult.timing] enters the render delay only: with
    another total and the same estimate a table is produced again, with the
    same headings and the same TTFB, load delay and load time rows. *)
Theorem leading_phases_ignore_timing {T : ArtifactTypes} (C : Collaborators T)
    (artifacts : Artifacts T) (context : AuditContext T)
    (table : Table NodeItem) (total : float) :
  makePhaseTable artifacts context = Normal (Some table) ->
  exists table',
    @makePhaseTable T
      (withMetricResult C (fun data => withTiming (LargestContentfulPaint_request data) total))
      artifacts context = Normal (Some table') /\
    headings table' = headings table /\
    firstn 3 (items table') = firstn 3 (items table) /\
    exists ttfb loadDelay loadTime,
      firstn 3 (items table) =
        [ PhaseRow "TTFB" ttfb; PhaseRow "Load Delay" loadDelay;
          PhaseRow "Load Time" loadTime ] /\
      nth_error (items table') 3 =
        Some (PhaseRow "Render Delay" (total - loadTime - loadDelay - ttfb)%float).
Proof.
  intros H.
  destruct (makePhaseTable_produced artifacts context table H)
    as (lcpRecord & s & e & Hlcp & Hts & Hs & He & ->).
  rewrite makePhaseTable_unfold.
  unfold lcpRecordOf, phaseTableAt, metricResultOf, timeOriginTsOf, firstByteTsOf,
    mainResourceOf, processedNavigationOf, metricComputationData in *.
  cbn [withMetricResult getLcpRecord DEFAULT_PASS NetworkRecords_request
       ProcessedNavigation_request LargestContentfulPaint_request
       MainResource_request] in *.
  rewrite Hlcp.
  unfold resolvedLoadTs, withTiming in *; cbn [pessimisticEstimate] in *.
  rewrite Hts, Hs, He. simpl.
  eexists. split; [reflexivity|]. simpl.
  repeat split. do 3 eexists. split; reflexivity.
Qed.

Lemma leading_phases_ignore_timing_witness :
  exists table',
    @makePhaseTable _
      (withMetricResult Fixture.observedLoad
         (fun data => withTiming
            (@LargestContentfulPaint_request _ Fixture.observedLoad data) 900))
      (Fixture.artifacts [Fixture.lcpImage]) Fixture.context = Normal (Some table') /\
    headings table' = headings (Fixture.phaseTable 200 100 150 200) /\
    firstn 3 (items table') = firstn 3 (items (Fixture.phaseTable 200 100 150 200)) /\
    exists ttfb loadDelay loadTime,
      firstn 3 (items (Fixture.phaseTable 200 100 150 200)) =
        [ PhaseRow "TTFB" ttfb; PhaseRow "Load Delay" loadDelay;
          PhaseRow "Load Time" loadTime ] /\
      nth_error (items table') 3 =
        Some (PhaseRow "Render Delay" (900 - loadTime - loadDelay - ttfb)%float).
Proof.
  apply (leading_phases_ignore_timing Fixture.observedLoad
           (Fixture.artifacts [Fixture.lcpImage]) Fixture.context
           (Fixture.phaseTable 200 100 150 200) 900).
  reflexivity.
Defined.

(** ** What the observed branch and the first byte read *)

(** X5: without an estimate the request id of the LCP record is not read, nor
    its [responseHeadersEndTime]: two runs whose LCP records have the same
    [networkRequestTime] and [networkEndTime] return the same thing. *)
Theorem observed_branch_reads_times_only {T : ArtifactTypes} (C : Collaborators T)
    (artifacts : Artifacts T) (context : AuditContext T)
    (resolver resolver' : option Trace -> ProcessedNavigation -> list NetworkRecord ->
                          option NetworkRecord) :
  pessimisticEstimate (metricResultOf artifacts context) = None ->
  (forall trace navigation records,
     sameObservedTimes (resolver trace navigation records)
       (resolver' trace navigation records)) ->
  @makePhaseTable T (withLcpRecord C resolver) artifacts context =
  @makePhaseTable T (withLcpRecord C resolver') artifacts context.
Proof.
  intros Hobs Hsame.
  rewrite !makePhaseTable_unfold. f_equal.
  unfold lcpRecordOf, phaseTableAt, metricResultOf, timeOriginTsOf, firstByteTsOf,
    mainResourceOf, processedNavigationOf, metricComputationData in *.
  cbn [withLcpRecord getLcpRecord DEFAULT_PASS NetworkRecords_request
       ProcessedNavigation_request LargestContentfulPaint_request
       MainResource_request] in *.
  match goal with
  | |- context [resolver ?t ?n ?r] => specialize (Hsame t n r)
  end.
  destruct (resolver _ _ _) as [r|], (resolver' _ _ _) as [r'|];
    simpl in Hsame; try contradiction; [|reflexivity].
  destruct Hsame as [Hstart Hend].
  unfold resolvedLoadTs. rewrite Hobs, Hstart, Hend. reflexivity.
Qed.

Lemma observed_branch_reads_times_only_witness :
  @makePhaseTable _
    (withLcpRecord Fixture.observedLoad (fun _ _ _ => Some Fixture.heroImage))
    (Fixture.artifacts [Fixture.lcpImage]) Fixture.context =
  @makePhaseTable _
    (withLcpRecord Fixture.observedLoad
       (fun _ _ _ => Some (Fixture.record "77" 1300 1450 5)))
    (Fixture.artifacts [Fixture.lcpImage]) Fixture.context.
Proof.
  apply (observed_branch_reads_times_only Fixture.observedLoad
           (Fixture.artifacts [Fixture.lcpImage]) Fixture.context).
  - reflexivity.
  - intros trace navigation records. split; reflexivity.
Defined.

(** X6: of the main resource only [responseHeadersEndTime] is read: two runs
    whose main resources agree on it return the same thing. *)
Theorem main_resource_read_for_headers_end_only {T : ArtifactTypes}
    (C : Collaborators T) (artifacts : Artifacts T) (context : AuditContext T)
    (main main' : MetricComputationData -> NetworkRecord) :
  (forall data, responseHeadersEndTime (main data) = responseHeadersEndTime (main' data)) ->
  @makePhaseTable T (withMainResource C main) artifacts context =
  @makePhaseTable T (withMainResource C main') artifacts context.
Proof.
  intros Hsame.
  rewrite !makePhaseTable_unfold. f_equal.
  unfold lcpRecordOf, phaseTableAt, metricResultOf, timeOriginTsOf, firstByteTsOf,
    mainResourceOf, processedNavigationOf, metricComputationData in *.
  cbn [withMainResource getLcpRecord DEFAULT_PASS NetworkRecords_request
       ProcessedNavigation_request LargestContentfulPaint_request
       MainResource_request] in *.
  rewrite Hsame. reflexivity.
Qed.

Lemma main_resource_read_for_headers_end_only_witness :
  @makePhaseTable _
    (withMainResource Fixture.observedLoad (fun _ => Fixture.mainDocument))
    (Fixture.artifacts [Fixture.lcpImage]) Fixture.context =
  @makePhaseTable _
    (withMainResource Fixture.observedLoad
       (fun _ => Fixture.record "other" 3 4 1200))
    (Fixture.artifacts [Fixture.lcpImage]) Fixture.context.
Proof.
  apply (main_resource_read_for_headers_end_only Fixture.observedLoad
           (Fixture.artifacts [Fixture.lcpImage]) Fixture.context).
  intros data. reflexivity.
Defined.

(** ** The load timestamps after the selection *)

Lemma fold_simulatedStep_shape (entries : list (Node * NodeTiming))
    (lcpRecord : NetworkRecord) (timeOriginTs : float) (ts : LoadTs) :
  (Exists (fun entry => matchesLcp (fst entry) lcpRecord = true) entries /\
   exists s e, fold_left (simulatedStep lcpRecord timeOriginTs) entries ts
               = (Some s, Some e)) \/
  (Forall (fun entry => matchesLcp (fst entry) lcpRecord = false) entries /\
   fold_left (simulatedStep lcpRecord timeOriginTs) entries ts = ts).
Proof.
  revert ts.
  induction entries as [|entry rest IH]; intros ts; simpl.
  - right. split; [constructor|reflexivity].
  - destruct (IH (simulatedStep lcpRecord timeOriginTs ts entry))
      as [[Hex Hsome] | [Hall Hsame]].
    + left. split; [apply Exists_cons_tl; exact Hex|exact Hsome].
    + rewrite Hsame. unfold simulatedStep.
      destruct (matchesLcp (fst entry) lcpRecord) eqn:Hm.
      * left. split; [apply Exists_cons_hd; exact Hm|].
        do 2 eexists. reflexivity.
      * right. split; [constructor; assumption|reflexivity].
Qed.

(** X7: after the selection the two load timestamps are numbers together or
    undefined together, and they are undefined exactly when there is an
    estimate none of whose entries has a network node with the request id of
    the LCP record. *)
Theorem load_timestamps_defined_together (metricResult : MetricResult)
    (lcpRecord : NetworkRecord) (timeOriginTs : float) :
  exists lcpLoadStartTs lcpLoadEndTs,
    selectLoadTs metricResult lcpRecord timeOriginTs
      = Normal (lcpLoadStartTs, lcpLoadEndTs) /\
    (lcpLoadStartTs = None <-> lcpLoadEndTs = None) /\
    (lcpLoadStartTs = None <->
     exists estimate,
       pessimisticEstimate metricResult = Some estimate /\
       Forall (fun entry => matchesLcp (fst entry) lcpRecord = false)
         (nodeTimings estimate)).
Proof.
  rewrite selectLoadTs_resolved. unfold resolvedLoadTs.
  destruct (pessimisticEstimate metricResult) as [estimate|].
  - destruct (fold_simulatedStep_shape (nodeTimings estimate) lcpRecord
                timeOriginTs (None, None)) as [[Hex (s & e & ->)] | [Hall ->]].
    + exists (Some s), (Some e). split; [reflexivity|].
      split; [split; discriminate|].
      split; [discriminate|].
      intros (estimate' & Heq & Hall). injection Heq as <-.
      apply Exists_exists in Hex. destruct Hex as (entry & Hin & Hm).
      rewrite Forall_forall in Hall. rewrite (Hall entry Hin) in Hm. discriminate.
    + exists None, None. split; [reflexivity|].
      split; [split; reflexivity|].
      split; [|reflexivity].
      intros _. exists estimate. split; [reflexivity|exact Hall].
  - do 2 eexists. split; [reflexivity|].
    split; [split; discriminate|].
    split; [discriminate|].
    intros (estimate & Heq & _). discriminate.
Qed.

(** ** Timestamps that are not numbers *)

Lemma Prim2SF_nan (x : float) : Prim2SF x = S754_nan -> x = nan.
Proof.
  intros H. rewrite <- (SF2Prim_Prim2SF x), H. reflexivity.
Qed.

Lemma SFeqb_refl_finite (s : bool) (m : positive) (e : Z) :
  SFeqb (S754_finite s m e) (S754_finite s m e) = true.
Proof.
  unfold SFeqb, SFcompare.
  destruct s; rewrite Z.compare_refl, ?Pos.compare_cont_refl, ?Pos.compare_refl;
    reflexivity.
Qed.

(** [Number.isNaN(x)] holds of the one NaN only. *)
Lemma is_nan_nan (x : float) : PrimFloat.is_nan x = true -> x = nan.
Proof.
  unfold PrimFloat.is_nan. rewrite FloatAxioms.eqb_spec. intros H.
  apply Prim2SF_nan.
  destruct (Prim2SF x) as [s|s| |s m e]; try reflexivity.
  - destruct s; discriminate.
  - destruct s; discriminate.
  - rewrite SFeqb_refl_finite in H. discriminate.
Qed.

Lemma add_nan_r (x : float) : (x + nan)%float = nan.
Proof.
  apply Prim2SF_inj. rewrite add_spec.
  change (Prim2SF nan) with S754_nan.
  destruct (Prim2SF x) as [s|s| |s m e]; reflexivity.
Qed.

Lemma sub_nan_r (x : float) : (x - nan)%float = nan.
Proof.
  apply Prim2SF_inj. rewrite sub_spec.
  change (Prim2SF nan) with S754_nan.
  destruct (Prim2SF x) as [s|s| |s m e]; reflexivity.
Qed.

Lemma sub_nan_l (x : float) : (nan - x)%float = nan.
Proof.
  apply Prim2SF_inj. rewrite sub_spec.
  change (Prim2SF nan) with S754_nan.
  destruct (Prim2SF x) as [s|s| |s m e]; reflexivity.
Qed.

(** A falsy number is [0], [-0] or [NaN]. *)
Lemma toBoolean_false (x : float) :
  Js.toBoolean x = false -> x = 0%float \/ x = (-0)%float \/ x = nan.
Proof.
  unfold Js.toBoolean. intros H.
  apply negb_false_iff, orb_true_iff in H. destruct H as [H | H].
  - rewrite FloatAxioms.eqb_spec in H. change (Prim2SF 0) with (S754_zero false) in H.
    rewrite <- (SF2Prim_Prim2SF x).
    destruct (Prim2SF x) as [s|s| |s m e]; try discriminate.
    + destruct s; [right; left|left]; reflexivity.
    + destruct s; discriminate.
    + destruct s; discriminate.
  - right; right. apply is_nan_nan. exact H.
Qed.

(** Scaling by 1000 keeps a falsy number falsy. *)
Lemma toBoolean_scaled (x : float) :
  Js.toBoolean x = false -> Js.toBoolean (x * 1000) = false.
Proof.
  intros H. destruct (toBoolean_false x H) as [-> | [-> | ->]]; reflexivity.
Qed.

Lemma fold_simulatedStep_offset (entries : list (Node * NodeTiming))
    (lcpRecord : NetworkRecord) (timeOriginTs : float) (ts : LoadTs) :
  fold_left (simulatedStep lcpRecord timeOriginTs) entries ts = ts \/
  exists nodeTiming,
    fold_left (simulatedStep lcpRecord timeOriginTs) entries ts =
    (Some (startTime nodeTiming * 1000 + timeOriginTs)%float,
     Some (endTime nodeTiming * 1000 + timeOriginTs)%float).
Proof.
  revert ts.
  induction entries as [|entry rest IH]; intros ts; simpl.
  - left. reflexivity.
  - destruct (IH (simulatedStep lcpRecord timeOriginTs ts entry)) as [-> | Hset].
    + unfold simulatedStep.
      destruct (matchesLcp (fst entry) lcpRecord).
      * right. exists (snd entry). reflexivity.
      * left. reflexivity.
    + right. exact Hset.
Qed.

(** X8: without an estimate, an LCP record whose [networkRequestTime] or
    [networkEndTime] is [0], [-0] or [NaN] gives no phase table. *)
Theorem observed_falsy_time_gives_no_table {T : ArtifactTypes} {C : Collaborators T}
    (artifacts : Artifacts T) (context : AuditContext T) (lcpRecord : NetworkRecord) :
  pessimisticEstimate (metricResultOf artifacts context) = None ->
  lcpRecordOf artifacts = Some lcpRecord ->
  Js.toBoolean (networkRequestTime lcpRecord) = false \/
  Js.toBoolean (networkEndTime lcpRecord) = false ->
  makePhaseTable artifacts context = Normal None.
Proof.
  intros Hobs Hlcp Hfalsy.
  rewrite makePhaseTable_unfold, Hlcp. f_equal.
  unfold resolvedLoadTs. rewrite Hobs.
  destruct Hfalsy as [H | H]; apply toBoolean_scaled in H; rewrite H.
  - reflexivity.
  - rewrite andb_false_r. reflexivity.
Qed.

Lemma observed_falsy_time_gives_no_table_witness :
  @makePhaseTable _ Fixture.unsentLoad (Fixture.artifacts [Fixture.lcpImage])
    Fixture.context = Normal None.
Proof.
  apply (@observed_falsy_time_gives_no_table Fixture.types Fixture.unsentLoad
           (Fixture.artifacts [Fixture.lcpImage]) Fixture.context
           Fixture.unsentHeroImage).
  - reflexivity.
  - reflexivity.
  - left. reflexivity.
Defined.

(** X9: with an estimate, a time origin that is [NaN] gives no phase table,
    whatever the estimate holds: the origin is added to both load
    timestamps. *)
Theorem simulated_nan_origin_gives_no_table {T : ArtifactTypes} {C : Collaborators T}
    (artifacts : Artifacts T) (context : AuditContext T) :
  pessimisticEstimate (metricResultOf artifacts context) <> None ->
  PrimFloat.is_nan (timeOriginTsOf artifacts) = true ->
  makePhaseTable artifacts context = Normal None.
Proof.
  intros Hsim Hnan.
  rewrite makePhaseTable_unfold. f_equal.
  destruct (lcpRecordOf artifacts) as [lcpRecord|]; [|reflexivity].
  unfold resolvedLoadTs.
  destruct (pessimisticEstimate _) as [estimate|]; [|contradiction Hsim; reflexivity].
  rewrite (is_nan_nan _ Hnan).
  destruct (fold_simulatedStep_offset (nodeTimings estimate) lcpRecord nan (None, None))
    as [-> | (nodeTiming & ->)].
  - reflexivity.
  - rewrite !add_nan_r. reflexivity.
Qed.

Lemma simulated_nan_origin_gives_no_table_witness :
  @makePhaseTable _ Fixture.brokenOriginLoad (Fixture.artifacts [Fixture.lcpImage])
    Fixture.context = Normal None.
Proof.
  apply (@simulated_nan_origin_gives_no_table Fixture.types Fixture.brokenOriginLoad
           (Fixture.artifacts [Fixture.lcpImage]) Fixture.context).
  - discriminate.
  - reflexivity.
Defined.

(** X10: the guard before the arithmetic tests the two load timestamps only.
    When the main resource's [responseHeadersEndTime] is [NaN] and a table is
    produced, its TTFB, load delay and render delay are [NaN]. *)
Theorem nan_first_byte_is_emitted {T : ArtifactTypes} {C : Collaborators T}
    (artifacts : Artifacts T) (context : AuditContext T) (table : Table NodeItem) :
  makePhaseTable artifacts context = Normal (Some table) ->
  PrimFloat.is_nan (responseHeadersEndTime (mainResourceOf artifacts context)) = true ->
  exists loadTime,
    items table =
      [ PhaseRow "TTFB" nan; PhaseRow "Load Delay" nan;
        PhaseRow "Load Time" loadTime; PhaseRow "Render Delay" nan ].
Proof.
  intros H Hnan.
  destruct (makePhaseTable_produced artifacts context table H)
    as (lcpRecord & s & e & _ & _ & _ & _ & ->).
  unfold phaseTableAt, phaseDetails, makeTableDetails, firstByteTsOf; simpl.
  rewrite (is_nan_nan _ Hnan).
  change (nan * 1000)%float with nan.
  rewrite sub_nan_l, sub_nan_r.
  change (nan / 1000)%float with nan.
  rewrite !sub_nan_r.
  eexists. reflexivity.
Qed.

Lemma nan_first_byte_is_emitted_witness :
  exists loadTime,
    items (Fixture.phaseTable nan nan 150 nan) =
      [ PhaseRow "TTFB" nan; PhaseRow "Load Delay" nan;
        PhaseRow "Load Time" loadTime; PhaseRow "Render Delay" nan ].
Proof.
  apply (@nan_first_byte_is_emitted Fixture.types Fixture.brokenMainLoad
           (Fixture.artifacts [Fixture.lcpImage]) Fixture.context
           (Fixture.phaseTable nan nan 150 nan)).
  - reflexivity.
  - reflexivity.
Defined.
